(** * Product catalog API: a shallow embedding and its properties

    The development follows the layout of the backend package:

    - [models]           app/models/product.py, app/models/error.py
    - [seed_products]    app/data/seed_products.py
    - [logging_config]   app/core/logging_config.py
    - [product_service]  app/services/product_service.py
    - [api_products]     app/api/products.py
    - [main]             app/main.py

    Module-level Python state (the product list bound once at import time
    and the stdout log stream) is threaded explicitly through a small
    state monad.  The filtering and validation behaviour that the
    specification describes is written down separately in [Spec], from the
    specification's wording, so that it can be compared with what the
    request handlers do. *)

From Stdlib Require Import ZArith String Ascii List Bool Lia DecimalString.
From stdpp Require Import base tactics option list.

Import ListNotations.
Local Open Scope string_scope.
Local Open Scope Z_scope.

(** ** app/models *)

Module models.

(** Python's [Decimal] restricted to finite values: [unscaled * 10^-places].
    [Decimal("29.99")] is [{| unscaled := 2999; places := 2 |}]. *)
Record Decimal := mkDecimal { unscaled : Z; places : nat }.

Definition Decimal_leb (a b : Decimal) : bool :=
  unscaled a * 10 ^ Z.of_nat (places b) <=? unscaled b * 10 ^ Z.of_nat (places a).

Definition Decimal_ltb (a b : Decimal) : bool :=
  unscaled a * 10 ^ Z.of_nat (places b) <? unscaled b * 10 ^ Z.of_nat (places a).

(** [ProductCategory = Literal["electronics", "clothing", "home", "sports", "books"]] *)
Inductive ProductCategory := electronics | clothing | home | sports | books.

Definition category_literal (c : ProductCategory) : string :=
  match c with
  | electronics => "electronics"
  | clothing => "clothing"
  | home => "home"
  | sports => "sports"
  | books => "books"
  end.

Definition all_categories : list ProductCategory :=
  [electronics; clothing; home; sports; books].

(** The strings the literal type admits. *)
Definition category_literals : list string :=
  map category_literal all_categories.

Record Product := mkProduct {
  product_id : Z;
  product_name : string;
  product_description : string;
  product_price_usd : Decimal;
  product_category : ProductCategory;
  product_in_stock : bool
}.

Record ProductListResponse := mkProductListResponse {
  products : list Product;
  total_count : Z
}.

(** [timestamp_utc] is filled from the wall clock by a default factory;
    the model carries it as an opaque string. *)
Record ErrorResponse := mkErrorResponse {
  error_code : string;
  error_message : string;
  error_details : option (list (string * string));
  timestamp_utc : string
}.

End models.
Export models.

(** ** app/data/seed_products.py *)

Module seed_products.

Definition usd (cents : Z) : Decimal := mkDecimal cents 2.

Definition get_seed_products : list Product :=
  [ (* Electronics (8 products) *)
    mkProduct 1 "Wireless Bluetooth Mouse"
      "Ergonomic wireless mouse with 2.4GHz USB receiver and long-lasting battery life"
      (usd 2999) electronics true;
    mkProduct 2 "Mechanical Gaming Keyboard"
      "RGB backlit mechanical keyboard with blue switches and programmable macros"
      (usd 8999) electronics true;
    mkProduct 3 "USB-C Hub 7-in-1"
      "Multi-port USB-C hub with HDMI, SD card reader, and 100W power delivery"
      (usd 4599) electronics true;
    mkProduct 4 "Wireless Earbuds Pro"
      "Active noise cancelling wireless earbuds with 30-hour battery life and charging case"
      (usd 14999) electronics false;
    mkProduct 5 "4K Webcam"
      "Ultra HD 4K webcam with autofocus, ring light, and dual microphones"
      (usd 11999) electronics true;
    mkProduct 6 "Portable SSD 1TB"
      "Ultra-fast portable solid state drive with USB 3.2 Gen 2 speeds up to 1050MB/s"
      (usd 12999) electronics true;
    mkProduct 7 "Smart LED Light Bulb"
      "WiFi-enabled color-changing LED bulb compatible with Alexa and Google Home"
      (usd 1999) electronics true;
    mkProduct 8 "Wireless Charger Stand"
      "15W fast wireless charging stand with adjustable viewing angle for smartphones"
      (usd 3499) electronics true;
    (* Clothing (7 products) *)
    mkProduct 9 "Classic Cotton T-Shirt"
      "100% organic cotton crew neck t-shirt available in multiple colors"
      (usd 2499) clothing true;
    mkProduct 10 "Slim Fit Denim Jeans"
      "Stretch denim jeans with modern slim fit and classic 5-pocket styling"
      (usd 5999) clothing true;
    mkProduct 11 "Hooded Zip Sweatshirt"
      "Comfortable fleece-lined hoodie with full zip and kangaroo pockets"
      (usd 4499) clothing true;
    mkProduct 12 "Running Jacket Windbreaker"
      "Lightweight water-resistant windbreaker with reflective details for running"
      (usd 6999) clothing false;
    mkProduct 13 "Merino Wool Beanie"
      "Soft merino wool winter beanie hat with fold-over cuff design"
      (usd 2999) clothing true;
    mkProduct 14 "Canvas Sneakers"
      "Classic low-top canvas sneakers with rubber sole and cushioned insole"
      (usd 5499) clothing true;
    mkProduct 15 "Leather Crossbody Bag"
      "Genuine leather crossbody bag with adjustable strap and multiple compartments"
      (usd 8999) clothing true;
    (* Home (7 products) *)
    mkProduct 16 "Stainless Steel French Press"
      "34oz double-wall insulated French press coffee maker with heat-resistant handle"
      (usd 3999) home true;
    mkProduct 17 "Ceramic Non-Stick Frying Pan"
      "10-inch ceramic-coated frying pan with ergonomic handle and even heat distribution"
      (usd 4999) home true;
    mkProduct 18 "Memory Foam Pillow Set"
      "Set of 2 bamboo-covered memory foam pillows with adjustable fill for custom comfort"
      (usd 7999) home true;
    mkProduct 19 "Smart Robot Vacuum"
      "App-controlled robot vacuum with auto-recharge and scheduled cleaning features"
      (usd 29999) home false;
    mkProduct 20 "Bamboo Cutting Board Set"
      "Set of 3 bamboo cutting boards with juice grooves and non-slip feet"
      (usd 3499) home true;
    mkProduct 21 "Aromatherapy Essential Oil Diffuser"
      "Ultrasonic essential oil diffuser with 7 LED light colors and auto shut-off"
      (usd 2999) home true;
    mkProduct 22 "Weighted Blanket 15lbs"
      "Premium weighted blanket with glass beads and soft breathable cotton cover"
      (usd 8999) home true;
    (* Sports (5 products) *)
    mkProduct 23 "Yoga Mat with Carrying Strap"
      "6mm thick non-slip yoga mat with alignment marks and free carrying strap"
      (usd 3999) sports true;
    mkProduct 24 "Adjustable Dumbbell Set"
      "Pair of adjustable dumbbells from 5-52.5 lbs with quick-change dial system"
      (usd 49999) sports true;
    mkProduct 25 "Resistance Bands Set"
      "Set of 5 resistance bands with handles, door anchor, and carrying bag"
      (usd 2499) sports true;
    mkProduct 26 "Foam Roller for Muscle Recovery"
      "High-density foam roller for deep tissue massage and muscle recovery"
      (usd 2999) sports true;
    mkProduct 27 "Sports Water Bottle 32oz"
      "Insulated stainless steel water bottle keeps drinks cold for 24 hours"
      (usd 3499) sports false;
    (* Books (3 products) *)
    mkProduct 28 "The Pragmatic Programmer"
      "Classic software development book with timeless programming wisdom and best practices"
      (usd 4499) books true;
    mkProduct 29 "Atomic Habits"
      "Science-backed strategies for building good habits and breaking bad ones"
      (usd 1699) books true;
    mkProduct 30 "The Design of Everyday Things"
      "Foundational book on user-centered design and human-computer interaction"
      (usd 2499) books true ].

End seed_products.
Export seed_products.

(** ** Process state and the state monad

    Two pieces of module-level state exist while the application runs:
    the list bound to [_PRODUCTS_DATABASE] when [product_service] is
    imported, and the stdout stream that the JSON log handler writes to. *)

Module runtime.

Inductive LogValue := LStr (s : string) | LInt (n : Z).

(** One line written by [JsonFormatter.format]; the wall-clock
    [timestamp] entry is left out. *)
Record LogRecord := mkLogRecord {
  level : Z;
  logger_name : string;
  message : string;
  extra_fields : list (string * LogValue)
}.

Record State := mkState {
  _PRODUCTS_DATABASE : list Product;
  stdout : list LogRecord
}.

Definition M (A : Type) : Type := State -> A * State.

Definition ret {A} (a : A) : M A := fun s => (a, s).

Definition bind {A B} (m : M A) (k : A -> M B) : M B :=
  fun s => let (a, s') := m s in k a s'.

Definition get_database : M (list Product) :=
  fun s => (_PRODUCTS_DATABASE s, s).

Definition write_stdout (r : LogRecord) : M unit :=
  fun s => (tt, mkState (_PRODUCTS_DATABASE s) (stdout s ++ [r])).

End runtime.
Export runtime.

Declare Scope monad_scope.
Delimit Scope monad_scope with monad.
Notation "'let*' x ':=' m 'in' k" := (bind m (fun x => k))
  (at level 10, x name, m at level 100, k at level 200) : monad_scope.
Local Open Scope monad_scope.

(** ** app/core/logging_config.py *)

Module logging_config.

Definition logging_INFO : Z := 20.

(** [StructuredLogger]: the wrapper only remembers the logger's name. *)
Record StructuredLogger := mkStructuredLogger { _logger : string }.

(** [_log] builds a record and hands it to [Logger.handle], which passes
    it to the root stdout handler without consulting the logger level. *)
Definition _log (self : StructuredLogger) (lvl : Z) (msg : string)
    (fields : list (string * LogValue)) : M unit :=
  write_stdout (mkLogRecord lvl (_logger self) msg fields).

Definition info (self : StructuredLogger) (msg : string)
    (fields : list (string * LogValue)) : M unit :=
  _log self logging_INFO msg fields.

End logging_config.

(** ** app/services/product_service.py *)

Module product_service.
Import logging_config.

Definition logger := mkStructuredLogger "app.services.product_service".

(** The value [_PRODUCTS_DATABASE] is bound to at import time. *)
Definition initial_database : list Product := get_seed_products.

Definition get_all_products : M (list Product) :=
  let* db := get_database in
  let* _ := info logger "retrieving_all_products"
    [("total_products_in_database", LInt (Z.of_nat (length db)));
     ("operation", LStr "get_all_products")] in
  let* db := get_database in
  let* _ := info logger "products_retrieved_successfully"
    [("products_returned", LInt (Z.of_nat (length db)));
     ("operation", LStr "get_all_products")] in
  get_database.

End product_service.

(** ** app/api/products.py *)

Module api_products.
Import logging_config.

Definition logger := mkStructuredLogger "app.api.products".

(** The handler is declared as [get_products()]: it has no parameters,
    so nothing of the request's query string reaches it. *)
Definition get_products : M ProductListResponse :=
  let* _ := info logger "api_request_received"
    [("endpoint", LStr "/api/products"); ("http_method", LStr "GET");
     ("operation", LStr "get_products")] in
  let* products := product_service.get_all_products in
  let* _ := info logger "api_response_prepared"
    [("endpoint", LStr "/api/products");
     ("products_count", LInt (Z.of_nat (length products)));
     ("operation", LStr "get_products")] in
  ret (mkProductListResponse products (Z.of_nat (length products))).

End api_products.

(** ** app/main.py *)

Module main.
Import logging_config.

Definition logger := mkStructuredLogger "app.main".

Definition health_check : M (list (string * string)) :=
  let* _ := info logger "health_check_request" [("endpoint", LStr "/health")] in
  ret [("status", "healthy")].

(** The query parameters a client may put on a request.  The names are
    the specification's; the test-suite spells them [min_price_usd],
    [max_price_usd], [category] and [search_keyword].  [None] is an
    absent parameter. *)
Record Criteria := mkCriteria {
  min_price : option Decimal;
  max_price : option Decimal;
  category : option string;
  keyword : option string
}.

Definition no_criteria : Criteria := mkCriteria None None None None.

(** The two operations the application registers:
    [GET /api/products] (through the products router) and [GET /health]. *)
Inductive Route := GET_api_products | GET_health.

Record Request := mkRequest { route : Route; query : Criteria }.

Inductive Body :=
| JsonProductList (r : ProductListResponse)
| JsonObject (d : list (string * string))
| JsonError (e : ErrorResponse).

Record Response := mkResponse { status_code : Z; body : Body }.

(** The framework calls the handler registered for the route with the
    parameters the handler declares (none, for both handlers) and wraps
    its return value in a 200 response. *)
Definition app (req : Request) : M Response :=
  match route req with
  | GET_api_products =>
      let* r := api_products.get_products in ret (mkResponse 200 (JsonProductList r))
  | GET_health =>
      let* d := health_check in ret (mkResponse 200 (JsonObject d))
  end.

(** State of the process once all modules are imported; the startup log
    lines are not tracked. *)
Definition initial_state : State :=
  mkState product_service.initial_database [].

(** Serving a sequence of requests one after the other. *)
Fixpoint serve_all (reqs : list Request) (s : State) : list Response * State :=
  match reqs with
  | [] => ([], s)
  | req :: rest =>
      let (resp, s') := app req s in
      let (resps, s'') := serve_all rest s' in
      (resp :: resps, s'')
  end.

Definition products_request (c : Criteria) : Request := mkRequest GET_api_products c.
Definition health_request (c : Criteria) : Request := mkRequest GET_health c.

(** The product records carried by a response (none unless it is a
    product list). *)
Definition returned_products (r : Response) : list Product :=
  match body r with
  | JsonProductList l => products l
  | _ => []
  end.

End main.
Export main.

(** ** The filter engine as the specification words it

    Nothing in this module is taken from the code: it writes down section
    4.2 of the specification (one pass over the catalog, a record being
    kept when it meets every criterion that is present), to be compared
    with what [app] answers.  Case folding is the ASCII one, which is what
    Python's [str.lower] does on the ASCII names and descriptions of the
    catalog. *)

Module Spec.

Definition lower_ascii (c : ascii) : ascii :=
  let n := nat_of_ascii c in
  if (Nat.leb 65 n && Nat.leb n 90)%bool then ascii_of_nat (n + 32) else c.

Fixpoint lower (s : string) : string :=
  match s with
  | EmptyString => EmptyString
  | String c t => String (lower_ascii c) (lower t)
  end.

(** [needle in hay] *)
Fixpoint contains (needle hay : string) : bool :=
  String.prefix needle hay ||
  match hay with
  | EmptyString => false
  | String _ t => contains needle t
  end.

Definition min_price_ok (c : Criteria) (r : Product) : bool :=
  match min_price c with
  | None => true
  | Some lo => Decimal_leb lo (product_price_usd r)
  end.

Definition max_price_ok (c : Criteria) (r : Product) : bool :=
  match max_price c with
  | None => true
  | Some hi => Decimal_leb (product_price_usd r) hi
  end.

Definition category_ok (c : Criteria) (r : Product) : bool :=
  match category c with
  | None => true
  | Some k => String.eqb k (category_literal (product_category r))
  end.

Definition keyword_matches (kw : string) (r : Product) : bool :=
  contains (lower kw) (lower (product_name r)) ||
  contains (lower kw) (lower (product_description r)).

Definition keyword_ok (c : Criteria) (r : Product) : bool :=
  match keyword c with
  | None => true
  | Some kw => keyword_matches kw r
  end.

Definition satisfies (c : Criteria) (r : Product) : bool :=
  min_price_ok c r && max_price_ok c r && category_ok c r && keyword_ok c r.

Definition filter (catalog : list Product) (c : Criteria) : list Product :=
  List.filter (satisfies c) catalog.

End Spec.

(** ** Requests used as concrete inputs

    Query strings taken from the filtering tests and the specification's
    examples: [category=books], [min_price=100&max_price=50],
    [keyword=wireless], [keyword=WIRELESS], [category=electronics] and
    [category=toys]. *)

Module sample_requests.

Definition books_criteria : Criteria :=
  mkCriteria None None (Some "books") None.

Definition inverted_range_criteria : Criteria :=
  mkCriteria (Some (mkDecimal 100 0)) (Some (mkDecimal 50 0)) None None.

Definition wireless_criteria : Criteria :=
  mkCriteria None None None (Some "wireless").

Definition upper_wireless_criteria : Criteria :=
  mkCriteria None None None (Some "WIRELESS").

Definition electronics_criteria : Criteria :=
  mkCriteria None None (Some "electronics") None.

Definition toys_criteria : Criteria :=
  mkCriteria None None (Some "toys") None.

(** The first two records of the seed catalog. *)
Definition wireless_mouse : Product :=
  mkProduct 1 "Wireless Bluetooth Mouse"
    "Ergonomic wireless mouse with 2.4GHz USB receiver and long-lasting battery life"
    (usd 2999) electronics true.

Definition gaming_keyboard : Product :=
  mkProduct 2 "Mechanical Gaming Keyboard"
    "RGB backlit mechanical keyboard with blue switches and programmable macros"
    (usd 8999) electronics true.

End sample_requests.
Export sample_requests.

(** ** app/models/product.py: the field constraints

    Pydantic checks the [Field] constraints whenever a [Product] or a
    [ProductListResponse] is constructed, and a violated constraint raises
    a validation error.  The checks are written as boolean functions.
    Strings are measured with [String.length], which is Python's [len] on
    ASCII text. *)

Module field_constraints.

(** Decimal places "not including trailing decimal zeroes":
    [Decimal("1.50")] has one. *)
Fixpoint decimal_places (u : Z) (p : nat) : nat :=
  match p with
  | O => O
  | S p' => if u mod 10 =? 0 then decimal_places (u / 10) p' else S p'
  end.

(** [product_id: gt=0]; [product_name: min_length=1, max_length=200];
    [product_description: min_length=1, max_length=1000];
    [product_price_usd: gt=0, decimal_places=2].  The category is a
    [ProductCategory] by typing. *)
Definition Product_fields_ok (p : Product) : bool :=
  (0 <? product_id p) &&
  Nat.leb 1 (String.length (product_name p)) &&
  Nat.leb (String.length (product_name p)) 200 &&
  Nat.leb 1 (String.length (product_description p)) &&
  Nat.leb (String.length (product_description p)) 1000 &&
  (0 <? unscaled (product_price_usd p)) &&
  Nat.leb (decimal_places (unscaled (product_price_usd p))
                          (places (product_price_usd p))) 2.


End field_constraints.
Export field_constraints.

(** ** app/core/logging_config.py: the other levels and the formatter *)

Module logging_format.
Import logging_config.






(** [record.levelname], that is [logging.getLevelName(level)]: the name
    of a predefined level, and ["Level %s" % level] for any other. *)
Definition getLevelName (lvl : Z) : string :=
  if lvl =? 50 then "CRITICAL"
  else if lvl =? 40 then "ERROR"
  else if lvl =? 30 then "WARNING"
  else if lvl =? 20 then "INFO"
  else if lvl =? 10 then "DEBUG"
  else if lvl =? 0 then "NOTSET"
  else "Level " ++ NilZero.string_of_int (Z.to_int lvl).

(** A Python [dict] with string keys: the items in insertion order, each
    key once. *)
Definition PyDict : Type := list (string * LogValue).

(** [d.get(k)] *)
Fixpoint dict_get (k : string) (d : PyDict) : option LogValue :=
  match d with
  | [] => None
  | (k', v') :: rest => if String.eqb k k' then Some v' else dict_get k rest
  end.

(** [d[k] = v]: an existing key keeps its place and takes the new value,
    a new key goes last. *)
Fixpoint dict_set (k : string) (v : LogValue) (d : PyDict) : PyDict :=
  match d with
  | [] => [(k, v)]
  | (k', v') :: rest =>
      if String.eqb k k' then (k', v) :: rest else (k', v') :: dict_set k v rest
  end.

(** [d.update(other)] *)
Definition dict_update (d other : PyDict) : PyDict :=
  fold_left (fun acc kv => dict_set (fst kv) (snd kv) acc) other d.


(** The four entries [JsonFormatter.format] starts [log_data] with;
    [now] is [datetime.now(UTC).isoformat()], and the message of a record
    built by [_log] has no arguments to interpolate. *)
Definition base_log_data (now : string) (record : LogRecord) : PyDict :=
  [("timestamp", LStr now);
   ("level", LStr (getLevelName (level record)));
   ("logger_name", LStr (logger_name record));
   ("message", LStr (message record))].


(** [log_data] as [JsonFormatter.format] hands it to [json.dumps], for a
    record built by [StructuredLogger._log]: such a record carries
    [extra_fields] and no exception information, so the update branch is
    taken and the exception branch is not. *)
Definition format_log_data (now : string) (record : LogRecord) : PyDict :=
  dict_update (base_log_data now record) (extra_fields record).

End logging_format.

(** Which of the two routes a request is for. *)
Definition is_products_request (req : Request) : bool :=
  match route req with GET_api_products => true | GET_health => false end.

Definition is_health_request (req : Request) : bool :=
  match route req with GET_api_products => false | GET_health => true end.

(** The lines a computation adds to stdout. *)
Definition written {A : Type} (m : M A) (s : State) : list LogRecord :=
  drop (length (stdout s)) (stdout (snd (m s))).

(** ** What one request does to the state *)

Section handlers.

Variable s : State.

Lemma get_all_products_result :
  fst (product_service.get_all_products s) = _PRODUCTS_DATABASE s.
Proof. reflexivity. Qed.

Lemma get_products_result :
  fst (api_products.get_products s) =
  mkProductListResponse (_PRODUCTS_DATABASE s)
    (Z.of_nat (length (_PRODUCTS_DATABASE s))).
Proof. reflexivity. Qed.

Lemma app_products_response (c : Criteria) :
  fst (app (products_request c) s) =
  mkResponse 200
    (JsonProductList
       (mkProductListResponse (_PRODUCTS_DATABASE s)
          (Z.of_nat (length (_PRODUCTS_DATABASE s))))).
Proof. reflexivity. Qed.

Lemma app_returned_products (c : Criteria) :
  returned_products (fst (app (products_request c) s)) = _PRODUCTS_DATABASE s.
Proof. reflexivity. Qed.

Lemma app_database (req : Request) :
  _PRODUCTS_DATABASE (snd (app req s)) = _PRODUCTS_DATABASE s.
Proof. destruct req as [[] q]; reflexivity. Qed.

(** A request only ever appends to the log. *)
Lemma app_stdout (req : Request) :
  exists lines, stdout (snd (app req s)) = (stdout s ++ lines)%list.
Proof.
  destruct req as [[] q]; cbn.
  - eexists. rewrite <- !app_assoc. reflexivity.
  - eexists. reflexivity.
Qed.

End handlers.

Lemma serve_all_database (reqs : list Request) :
  forall s, _PRODUCTS_DATABASE (snd (serve_all reqs s)) = _PRODUCTS_DATABASE s.
Proof.
  induction reqs as [|req rest IH]; intros s; [reflexivity|].
  cbn [serve_all].
  pose proof (app_database s req) as Hreq.
  destruct (app req s) as [resp s1]. cbn [snd] in Hreq.
  specialize (IH s1).
  destruct (serve_all rest s1) as [resps s2]. cbn [snd] in *.
  congruence.
Qed.

(** ** Lists *)

Section list_facts.

Context {A : Type}.

Lemma filter_length_bound (f : A -> bool) (l : list A) :
  (length (List.filter f l) <= length l)%nat.
Proof.
  induction l as [|a l IH]; cbn; [lia|].
  destruct (f a); cbn; lia.
Qed.

(** Filtering changes nothing exactly when every element passes. *)
Lemma filter_id_iff (f : A -> bool) (l : list A) :
  List.filter f l = l <-> Forall (fun x => f x = true) l.
Proof.
  induction l as [|a l IH]; cbn.
  - split; [constructor | reflexivity].
  - destruct (f a) eqn:Ha.
    + split.
      * intros H. injection H as H. constructor; [exact Ha | now apply IH].
      * intros H. inversion H; subst. f_equal. now apply IH.
    + split.
      * intros H. pose proof (filter_length_bound f l) as Hlen.
        rewrite H in Hlen. cbn in Hlen. lia.
      * intros H. inversion H; subst. congruence.
Qed.

Lemma filter_const_true (l : list A) : List.filter (fun _ => true) l = l.
Proof. apply filter_id_iff, Forall_forall. reflexivity. Qed.

(** In a subsequence, two elements keep the order they have in the
    enclosing list. *)
Lemma sublist_relative_order (l1 l2 : list A) :
  l1 `sublist_of` l2 ->
  forall (i j : nat) (a b : A),
    (i < j)%nat -> l1 !! i = Some a -> l1 !! j = Some b ->
    exists i' j' : nat, (i' < j')%nat /\ l2 !! i' = Some a /\ l2 !! j' = Some b.
Proof.
  induction 1 as [|x l1 l2 Hsub IH|x l1 l2 Hsub IH]; intros i j a b Hij Ha Hb.
  - discriminate.
  - destruct j as [|j]; [lia|]. cbn in Hb.
    destruct i as [|i]; cbn in Ha.
    + assert (Hin : b ∈ l2).
      { eapply elem_of_sublist; [|exact Hsub].
        apply list_elem_of_lookup. eauto. }
      apply list_elem_of_lookup in Hin as [k Hk].
      exists 0%nat, (S k). repeat split; [lia|exact Ha|exact Hk].
    + destruct (IH i j a b) as (i' & j' & Hlt & Ha' & Hb'); [lia|done|done|].
      exists (S i'), (S j'). repeat split; [lia|exact Ha'|exact Hb'].
  - destruct (IH i j a b) as (i' & j' & Hlt & Ha' & Hb'); [done|done|done|].
    exists (S i'), (S j'). repeat split; [lia|exact Ha'|exact Hb'].
Qed.

End list_facts.

(** ** Case folding and substring search *)

Section string_facts.
Import Spec.

Lemma prefix_lower (a : string) :
  forall s, String.prefix a s = true -> String.prefix (lower a) (lower s) = true.
Proof.
  induction a as [|x a IH]; intros [|y s]; cbn; try easy.
  destruct (ascii_dec x y) as [->|]; [|easy].
  intros H. destruct (ascii_dec (lower_ascii y) (lower_ascii y)); [|easy].
  now apply IH.
Qed.

(** Folding both strings keeps every occurrence. *)
Lemma contains_lower (a s : string) :
  contains a s = true -> contains (lower a) (lower s) = true.
Proof.
  induction s as [|y s IH]; cbn [contains lower]; intros H;
    apply orb_true_iff in H as [H|H].
  - apply (prefix_lower a "") in H. cbn [lower] in H. now rewrite H.
  - discriminate.
  - apply (prefix_lower a (String y s)) in H. cbn [lower] in H. now rewrite H.
  - apply IH in H. rewrite H. apply orb_true_r.
Qed.

End string_facts.

(** ** The specification's filter on the seed catalog

    What the specification expects for the requests of the filtering
    tests, computed with [Spec.filter]. *)

Example spec_filter_wireless :
  map product_id (Spec.filter get_seed_products wireless_criteria) = [1; 4; 8].
Proof. vm_compute. reflexivity. Qed.

Example spec_filter_upper_wireless :
  Spec.filter get_seed_products upper_wireless_criteria =
  Spec.filter get_seed_products wireless_criteria.
Proof. vm_compute. reflexivity. Qed.

Example spec_filter_electronics_up_to_50 :
  map product_id
      (Spec.filter get_seed_products
         (mkCriteria None (Some (mkDecimal 50 0)) (Some "electronics") None)) =
  [1; 3; 7; 8].
Proof. vm_compute. reflexivity. Qed.

Example spec_filter_from_100 :
  map product_price_usd
      (Spec.filter get_seed_products
         (mkCriteria (Some (mkDecimal 100 0)) None None None)) =
  [usd 14999; usd 11999; usd 12999; usd 29999; usd 49999].
Proof. vm_compute. reflexivity. Qed.

(** ** The products endpoint against the filter of the specification *)

(** C1, as the handler behaves.  For every catalog and every set of
    optional criteria the products endpoint applies no filter: it answers
    with the whole catalog, in order.  Hence every record that satisfies
    all the criteria provided is included; the answer is exactly the list
    of satisfying records precisely when every record of the catalog
    satisfies them, which is the case when no criterion is provided. *)
Theorem products_endpoint_returns_whole_catalog :
  forall (catalog : list Product) (log : list LogRecord) (c : Criteria),
    let result :=
      returned_products (fst (app (products_request c) (mkState catalog log))) in
    result = catalog /\
    (forall r, r ∈ catalog -> Spec.satisfies c r = true -> r ∈ result) /\
    (result = Spec.filter catalog c <->
     Forall (fun r => Spec.satisfies c r = true) catalog) /\
    result = Spec.filter catalog no_criteria.
Proof.
  intros catalog log c result.
  assert (Hres : result = catalog) by reflexivity.
  rewrite Hres. repeat split.
  - intros r Hin _. exact Hin.
  - intros H. apply filter_id_iff. symmetry. exact H.
  - intros H. symmetry. apply filter_id_iff. exact H.
  - symmetry. apply filter_const_true.
Qed.

Lemma products_endpoint_returns_whole_catalog_witness :
  Spec.satisfies books_criteria wireless_mouse = false /\
  wireless_mouse ∈
    returned_products (fst (app (products_request books_criteria) initial_state)) /\
  returned_products (fst (app (products_request books_criteria) initial_state)) =
    Spec.filter get_seed_products no_criteria.
Proof.
  pose proof (products_endpoint_returns_whole_catalog
                get_seed_products [] books_criteria) as (Hall & _ & _ & Hnone).
  split; [reflexivity|]. split; [|exact Hnone].
  change initial_state with (mkState get_seed_products []).
  rewrite Hall. apply list_elem_of_In. left. reflexivity.
Defined.

(** C1, as stated, fails: asked for [category=books], the endpoint also
    returns the wireless mouse, an electronics record, so membership in
    the answer is not equivalent to satisfying the criteria. *)
Lemma products_endpoint_filter_counterexample :
  ~ (forall r : Product,
       r ∈ returned_products
             (fst (app (products_request books_criteria) initial_state)) <->
       r ∈ get_seed_products /\ Spec.satisfies books_criteria r = true).
Proof.
  intros H.
  destruct (H wireless_mouse) as [Hto _].
  destruct Hto as [_ Hsat].
  - apply list_elem_of_In. left. reflexivity.
  - discriminate Hsat.
Qed.

(** ** Requests the specification's validator would reject *)

(** C2, as the handler behaves.  For every request to the products
    endpoint in which both bounds are supplied and [min_price > max_price],
    no validation takes place: the endpoint answers 200 with the whole
    catalog and its length, the body is not an error response, and no
    filtering is performed. *)
Theorem inverted_price_range_not_rejected :
  forall (catalog : list Product) (log : list LogRecord) (c : Criteria)
         (lo hi : Decimal),
    min_price c = Some lo ->
    max_price c = Some hi ->
    Decimal_ltb hi lo = true ->
    let resp := fst (app (products_request c) (mkState catalog log)) in
    status_code resp = 200 /\
    body resp =
      JsonProductList (mkProductListResponse catalog (Z.of_nat (length catalog))) /\
    returned_products resp = catalog /\
    (forall e : ErrorResponse, body resp <> JsonError e).
Proof.
  intros catalog log c lo hi _ _ _ resp.
  pose proof (app_products_response (mkState catalog log) c) as Hresp.
  fold resp in Hresp. rewrite Hresp. cbn.
  repeat split; intros e; discriminate.
Qed.

Lemma inverted_price_range_not_rejected_witness :
  min_price inverted_range_criteria = Some (mkDecimal 100 0) /\
  max_price inverted_range_criteria = Some (mkDecimal 50 0) /\
  Decimal_ltb (mkDecimal 50 0) (mkDecimal 100 0) = true /\
  status_code
    (fst (app (products_request inverted_range_criteria) initial_state)) = 200.
Proof.
  split; [reflexivity|]. split; [reflexivity|]. split; [reflexivity|].
  exact (proj1 (inverted_price_range_not_rejected
                  get_seed_products [] inverted_range_criteria
                  (mkDecimal 100 0) (mkDecimal 50 0)
                  eq_refl eq_refl eq_refl)).
Defined.

(** C2, as stated, fails: [min_price=100&max_price=50] is not answered
    with a 400 [invalid_price_range] error. *)
Lemma inverted_price_range_counterexample :
  Decimal_ltb (mkDecimal 50 0) (mkDecimal 100 0) = true /\
  ~ (status_code
       (fst (app (products_request inverted_range_criteria) initial_state)) = 400 /\
     exists e : ErrorResponse,
       body (fst (app (products_request inverted_range_criteria) initial_state)) =
         JsonError e /\
       error_code e = "invalid_price_range" /\
       error_message e = "Minimum price cannot exceed maximum price").
Proof.
  split; [reflexivity|].
  intros [Hstatus _]. discriminate Hstatus.
Qed.

(** C6, as the handler behaves.  For every request to the products
    endpoint whose category parameter is not one of the five literals, no
    validation takes place: the endpoint answers 200 with the whole
    catalog and its length, the body is not an error response, and no
    filtering is performed. *)
Theorem unknown_category_not_rejected :
  forall (catalog : list Product) (log : list LogRecord) (c : Criteria)
         (k : string),
    category c = Some k ->
    k ∉ category_literals ->
    let resp := fst (app (products_request c) (mkState catalog log)) in
    status_code resp = 200 /\
    body resp =
      JsonProductList (mkProductListResponse catalog (Z.of_nat (length catalog))) /\
    returned_products resp = catalog /\
    (forall e : ErrorResponse, body resp <> JsonError e).
Proof.
  intros catalog log c k _ _ resp.
  pose proof (app_products_response (mkState catalog log) c) as Hresp.
  fold resp in Hresp. rewrite Hresp. cbn.
  repeat split; intros e; discriminate.
Qed.

Lemma toys_not_a_category : "toys" ∉ category_literals.
Proof.
  intros H. apply list_elem_of_In in H. cbn in H.
  repeat (destruct H as [H|H]; [discriminate H|]). exact H.
Defined.

Lemma unknown_category_not_rejected_witness :
  category toys_criteria = Some "toys" /\
  ("toys" ∉ category_literals) /\
  status_code (fst (app (products_request toys_criteria) initial_state)) = 200.
Proof.
  split; [reflexivity|]. split; [exact toys_not_a_category|].
  exact (proj1 (unknown_category_not_rejected
                  get_seed_products [] toys_criteria "toys"
                  eq_refl toys_not_a_category)).
Defined.

(** C6, as stated, fails: [category=toys], which is none of the five
    literals, is not answered with an [invalid_category] failure. *)
Lemma unknown_category_counterexample :
  ("toys" ∉ category_literals) /\
  ~ (exists e : ErrorResponse,
       body (fst (app (products_request toys_criteria) initial_state)) =
         JsonError e /\
       error_code e = "invalid_category").
Proof.
  split; [exact toys_not_a_category|].
  intros (e & Hbody & _). discriminate Hbody.
Qed.

(** ** Keyword and category requests *)

(** C4, as the handler behaves.  For every keyword criterion, every
    catalog record in whose name or description the keyword occurs as a
    case-insensitive substring is returned (the endpoint applies no keyword
    filter, so it does not exclude the other records); in particular a
    record with "Wireless" in its name is returned, and meets the keyword
    test, for the keyword "wireless" written in any letter case. *)
Theorem keyword_matching_records_returned :
  forall (catalog : list Product) (log : list LogRecord) (c : Criteria)
         (kw : string) (r : Product),
    keyword c = Some kw ->
    r ∈ catalog ->
    let result :=
      returned_products (fst (app (products_request c) (mkState catalog log))) in
    (Spec.keyword_matches kw r = true -> r ∈ result) /\
    (Spec.lower kw = "wireless" ->
     Spec.contains "Wireless" (product_name r) = true ->
     Spec.keyword_matches kw r = true /\ r ∈ result).
Proof.
  intros catalog log c kw r _ Hin result.
  assert (Hres : result = catalog) by reflexivity.
  rewrite Hres. split; [intros _; exact Hin|].
  intros Hkw Hname. split; [|exact Hin].
  unfold Spec.keyword_matches. rewrite Hkw.
  apply contains_lower in Hname. cbn [Spec.lower] in Hname.
  change (Spec.contains "wireless" (Spec.lower (product_name r)) = true) in Hname.
  rewrite Hname. reflexivity.
Qed.

Lemma keyword_matching_records_returned_witness :
  keyword upper_wireless_criteria = Some "WIRELESS" /\
  wireless_mouse ∈ get_seed_products /\
  Spec.lower "WIRELESS" = "wireless" /\
  Spec.contains "Wireless" (product_name wireless_mouse) = true /\
  Spec.keyword_matches "WIRELESS" wireless_mouse = true /\
  wireless_mouse ∈
    returned_products
      (fst (app (products_request upper_wireless_criteria) initial_state)).
Proof.
  assert (Hin : wireless_mouse ∈ get_seed_products).
  { apply list_elem_of_In. left. reflexivity. }
  split; [reflexivity|]. split; [exact Hin|].
  split; [reflexivity|]. split; [reflexivity|].
  exact (proj2 (keyword_matching_records_returned
                  get_seed_products [] upper_wireless_criteria "WIRELESS"
                  wireless_mouse eq_refl Hin)
               eq_refl eq_refl).
Defined.

(** C4, as stated, fails: asked for [keyword=wireless], the endpoint also
    returns the gaming keyboard, whose name and description do not contain
    the keyword, so being returned is not equivalent to matching it. *)
Lemma keyword_filter_counterexample :
  ~ (forall r : Product,
       r ∈ returned_products
             (fst (app (products_request wireless_criteria) initial_state)) <->
       r ∈ get_seed_products /\ Spec.keyword_matches "wireless" r = true).
Proof.
  intros H.
  destruct (H gaming_keyboard) as [Hto _].
  destruct Hto as [_ Hmatch].
  - apply list_elem_of_In. right. left. reflexivity.
  - vm_compute in Hmatch. discriminate Hmatch.
Qed.

(** C5, as the handler behaves.  A request with the single criterion
    [category=electronics] is answered with the whole 30-record catalog:
    its first eight records are exactly the catalog records whose category
    is "electronics" (IDs 1 through 8), and they are followed by the 22
    records of the other categories. *)
Theorem electronics_request_returns_whole_catalog :
  forall earlier : list Request,
    let resp :=
      fst (app (products_request electronics_criteria)
               (snd (serve_all earlier initial_state))) in
    returned_products resp = get_seed_products /\
    length (returned_products resp) = 30%nat /\
    take 8 (returned_products resp) =
      Spec.filter get_seed_products electronics_criteria /\
    map product_id (Spec.filter (returned_products resp) electronics_criteria) =
      seqZ 1 8 /\
    length (drop 8 (returned_products resp)) = 22%nat /\
    Forall (fun r => product_category r <> electronics)
           (drop 8 (returned_products resp)).
Proof.
  intros earlier resp.
  assert (Hres : returned_products resp = get_seed_products).
  { unfold resp. rewrite app_returned_products, serve_all_database. reflexivity. }
  rewrite Hres. repeat split.
  cbn. repeat constructor; discriminate.
Qed.

(** C5, as stated, fails: the answer to [category=electronics] is not the
    eight records with IDs 1 through 8. *)
Lemma electronics_request_counterexample :
  map product_id
      (returned_products
         (fst (app (products_request electronics_criteria) initial_state))) <>
  seqZ 1 8.
Proof. vm_compute. discriminate. Qed.

(** ** The catalog served by the running process *)

(** C3.  A request to the products endpoint with no filter parameters,
    served at any point of the process's life, is answered 200 with the
    whole catalog unchanged: exactly 30 records, IDs 1..30 in catalog
    order, and [total_count] 30. *)
Theorem no_filter_returns_full_catalog :
  forall earlier : list Request,
    let resp :=
      fst (app (products_request no_criteria)
               (snd (serve_all earlier initial_state))) in
    status_code resp = 200 /\
    body resp = JsonProductList (mkProductListResponse get_seed_products 30) /\
    returned_products resp = get_seed_products /\
    length (returned_products resp) = 30%nat /\
    map product_id (returned_products resp) = seqZ 1 30.
Proof.
  intros earlier resp.
  assert (Hresp : resp =
            mkResponse 200 (JsonProductList (mkProductListResponse get_seed_products 30))).
  { unfold resp. rewrite app_products_response, serve_all_database. reflexivity. }
  rewrite Hresp. repeat split.
Qed.

(** C7.  For every catalog and every set of criteria, the records the
    products endpoint returns form a subsequence of the catalog: two
    records that appear in the answer, one before the other, appear in the
    catalog in that same order. *)
Theorem returned_products_subsequence :
  forall (catalog : list Product) (log : list LogRecord) (c : Criteria),
    let result :=
      returned_products (fst (app (products_request c) (mkState catalog log))) in
    result `sublist_of` catalog /\
    forall (i j : nat) (a b : Product),
      (i < j)%nat -> result !! i = Some a -> result !! j = Some b ->
      exists i' j' : nat,
        (i' < j')%nat /\ catalog !! i' = Some a /\ catalog !! j' = Some b.
Proof.
  intros catalog log c result.
  assert (Hsub : result `sublist_of` catalog).
  { unfold result. rewrite app_returned_products. cbn. reflexivity. }
  split; [exact Hsub|].
  exact (sublist_relative_order result catalog Hsub).
Qed.

Lemma returned_products_subsequence_witness :
  exists i' j' : nat,
    (i' < j')%nat /\
    get_seed_products !! i' = Some wireless_mouse /\
    get_seed_products !! j' = Some gaming_keyboard.
Proof.
  exact (proj2 (returned_products_subsequence get_seed_products [] electronics_criteria)
               0%nat 1%nat wireless_mouse gaming_keyboard
               (le_n 1) eq_refl eq_refl).
Defined.

(** C8.  The products operation is deterministic over an immutable
    catalog: whatever requests were served before and in between, two
    requests to the products endpoint with the same criteria receive the
    same response; no request changes the catalog, which is the 30-record
    seed sequence before and after every request. *)
Theorem products_endpoint_deterministic :
  forall (before between : list Request) (c : Criteria),
    let s0 := snd (serve_all before initial_state) in
    let first := app (products_request c) s0 in
    let s1 := snd (serve_all between (snd first)) in
    let second := app (products_request c) s1 in
    fst first = fst second /\
    (forall (req : Request) (s : State),
       _PRODUCTS_DATABASE (snd (app req s)) = _PRODUCTS_DATABASE s) /\
    _PRODUCTS_DATABASE s0 = get_seed_products /\
    _PRODUCTS_DATABASE (snd first) = get_seed_products /\
    _PRODUCTS_DATABASE s1 = get_seed_products /\
    _PRODUCTS_DATABASE (snd second) = get_seed_products /\
    length get_seed_products = 30%nat.
Proof.
  intros before between c s0 first s1 second.
  assert (H0 : _PRODUCTS_DATABASE s0 = get_seed_products).
  { unfold s0. rewrite serve_all_database. reflexivity. }
  assert (Hf : _PRODUCTS_DATABASE (snd first) = get_seed_products).
  { unfold first. rewrite app_database. exact H0. }
  assert (H1 : _PRODUCTS_DATABASE s1 = get_seed_products).
  { unfold s1. rewrite serve_all_database. exact Hf. }
  assert (Hs : _PRODUCTS_DATABASE (snd second) = get_seed_products).
  { unfold second. rewrite app_database. exact H1. }
  repeat split; try assumption.
  - unfold first, second. rewrite !app_products_response, H0, H1. reflexivity.
  - intros req s. apply app_database.
Qed.

(** C9.  Every GET request to /health, whatever query string it carries
    and whatever the state of the process, is answered 200 with the body
    [{"status": "healthy"}]. *)
Theorem health_check_healthy :
  forall (c : Criteria) (s : State),
    fst (app (health_request c) s) =
    mkResponse 200 (JsonObject [("status", "healthy")]).
Proof. intros c s. reflexivity. Qed.

(** C10.  The products handler takes no query parameters and neither
    validates nor filters: every request, whatever [min_price],
    [max_price], [category] or [keyword] it supplies and whatever was
    served before, gets the response a parameterless first request gets,
    namely 200 with the complete 30-record catalog and a [total_count]
    equal to the length of the product list; the body is never an error
    response. *)
Theorem products_endpoint_ignores_query :
  forall (earlier : list Request) (c : Criteria),
    let resp :=
      fst (app (products_request c) (snd (serve_all earlier initial_state))) in
    resp = fst (app (products_request no_criteria) initial_state) /\
    status_code resp = 200 /\
    returned_products resp = get_seed_products /\
    length (returned_products resp) = 30%nat /\
    (exists l : ProductListResponse,
       body resp = JsonProductList l /\
       total_count l = Z.of_nat (length (products l))) /\
    (forall e : ErrorResponse, body resp <> JsonError e).
Proof.
  intros earlier c resp.
  assert (Hresp : resp = fst (app (products_request no_criteria) initial_state)).
  { unfold resp. rewrite !app_products_response, serve_all_database. reflexivity. }
  rewrite Hresp. repeat split.
  - eexists. split; reflexivity.
  - intros e. discriminate.
Qed.

(** ** Dictionaries in insertion order *)

Section dict_facts.
Import logging_format.















End dict_facts.

(** ** What the requests write to the log *)

Section request_log.
Import logging_config logging_format.

Lemma written_app {A : Type} (m : M A) (s : State) (lines : list LogRecord) :
  stdout (snd (m s)) = (stdout s ++ lines)%list -> written m s = lines.
Proof. intros H. unfold written. rewrite H. apply drop_app_length. Qed.

Lemma app_products_stdout (c : Criteria) (s : State) :
  stdout (snd (app (products_request c) s)) =
  (stdout s ++
   [ mkLogRecord 20 "app.api.products" "api_request_received"
       [("endpoint", LStr "/api/products"); ("http_method", LStr "GET");
        ("operation", LStr "get_products")];
     mkLogRecord 20 "app.services.product_service" "retrieving_all_products"
       [("total_products_in_database",
         LInt (Z.of_nat (length (_PRODUCTS_DATABASE s))));
        ("operation", LStr "get_all_products")];
     mkLogRecord 20 "app.services.product_service"
       "products_retrieved_successfully"
       [("products_returned", LInt (Z.of_nat (length (_PRODUCTS_DATABASE s))));
        ("operation", LStr "get_all_products")];
     mkLogRecord 20 "app.api.products" "api_response_prepared"
       [("endpoint", LStr "/api/products");
        ("products_count", LInt (Z.of_nat (length (_PRODUCTS_DATABASE s))));
        ("operation", LStr "get_products")] ])%list.
Proof. cbn. rewrite <- !app_assoc. reflexivity. Qed.

Lemma app_health_stdout (c : Criteria) (s : State) :
  stdout (snd (app (health_request c) s)) =
  (stdout s ++
   [ mkLogRecord 20 "app.main" "health_check_request"
       [("endpoint", LStr "/health")] ])%list.
Proof. reflexivity. Qed.

Lemma request_cases (req : Request) :
  req = products_request (query req) \/ req = health_request (query req).
Proof. destruct req as [[] q]; [left|right]; reflexivity. Qed.

(** What one request adds: its number of lines, all at level INFO. *)
Lemma app_stdout_lines (req : Request) (s : State) :
  exists lines : list LogRecord,
    stdout (snd (app req s)) = (stdout s ++ lines)%list /\
    length lines =
      ((if is_products_request req then 4 else 0) +
       (if is_health_request req then 1 else 0))%nat /\
    Forall (fun r => level r = logging_INFO) lines.
Proof.
  destruct (request_cases req) as [-> | ->]; eexists; split.
  - apply app_products_stdout.
  - split; [reflexivity|]. repeat constructor.
  - apply app_health_stdout.
  - split; [reflexivity|]. repeat constructor.
Qed.

Lemma serve_all_cons (req : Request) (rest : list Request) (s : State) :
  serve_all (req :: rest) s =
  (fst (app req s) :: fst (serve_all rest (snd (app req s))),
   snd (serve_all rest (snd (app req s)))).
Proof.
  cbn [serve_all]. destruct (app req s) as [resp s1]. cbn [fst snd].
  destruct (serve_all rest s1) as [resps s2]. reflexivity.
Qed.

Lemma serve_all_stdout_lines (reqs : list Request) :
  forall s : State,
    exists lines : list LogRecord,
      stdout (snd (serve_all reqs s)) = (stdout s ++ lines)%list /\
      length lines =
        (4 * length (List.filter is_products_request reqs) +
         length (List.filter is_health_request reqs))%nat /\
      Forall (fun r => level r = logging_INFO) lines.
Proof.
  induction reqs as [|req rest IH]; intros s.
  - exists []. cbn. rewrite app_nil_r. repeat split. constructor.
  - rewrite serve_all_cons. cbn [snd].
    destruct (app_stdout_lines req s) as (l1 & H1 & Hlen1 & Hinfo1).
    destruct (IH (snd (app req s))) as (l2 & H2 & Hlen2 & Hinfo2).
    exists (l1 ++ l2)%list. split; [|split].
    + rewrite H2, H1, <- app_assoc. reflexivity.
    + rewrite length_app, Hlen1, Hlen2. cbn [List.filter].
      destruct (request_cases req) as [-> | ->]; cbn; lia.
    + apply Forall_app. split; assumption.
Qed.

(** A response depends on the state through the product list only. *)
Lemma app_response_database (req : Request) (s s' : State) :
  _PRODUCTS_DATABASE s = _PRODUCTS_DATABASE s' ->
  fst (app req s) = fst (app req s').
Proof.
  intros Hdb. destruct (request_cases req) as [-> | ->].
  - rewrite !app_products_response, Hdb. reflexivity.
  - reflexivity.
Qed.

End request_log.

(** ** Further properties of the handlers, the logger and the catalog *)

Section further_properties.
Import logging_config logging_format.

(** X1.  Whatever its query string and whatever the state, a request to
    the products endpoint writes exactly four log lines, in this order:
    [api_request_received] by the router, [retrieving_all_products] and
    [products_retrieved_successfully] by the service, and
    [api_response_prepared] by the router.  The three counts they carry
    are the length of the stored product list, which is also the
    [total_count] of the response.  A request to /health writes exactly
    one line, [health_check_request]. *)
Theorem request_log_lines :
  forall (c : Criteria) (s : State),
    let n := Z.of_nat (length (_PRODUCTS_DATABASE s)) in
    written (app (products_request c)) s =
      [ mkLogRecord 20 "app.api.products" "api_request_received"
          [("endpoint", LStr "/api/products"); ("http_method", LStr "GET");
           ("operation", LStr "get_products")];
        mkLogRecord 20 "app.services.product_service" "retrieving_all_products"
          [("total_products_in_database", LInt n);
           ("operation", LStr "get_all_products")];
        mkLogRecord 20 "app.services.product_service"
          "products_retrieved_successfully"
          [("products_returned", LInt n);
           ("operation", LStr "get_all_products")];
        mkLogRecord 20 "app.api.products" "api_response_prepared"
          [("endpoint", LStr "/api/products"); ("products_count", LInt n);
           ("operation", LStr "get_products")] ] /\
    body (fst (app (products_request c) s)) =
      JsonProductList (mkProductListResponse (_PRODUCTS_DATABASE s) n) /\
    written (app (health_request c)) s =
      [ mkLogRecord 20 "app.main" "health_check_request"
          [("endpoint", LStr "/health")] ].
Proof.
  intros c s n. split; [|split].
  - apply written_app, app_products_stdout.
  - reflexivity.
  - apply written_app, app_health_stdout.
Qed.

(** X2.  The log only grows.  After any sequence of requests the earlier
    log is a prefix of the log; the number of lines added is four for
    each products request plus one for each health request; and every
    added line has level INFO. *)
Theorem serve_all_log_growth :
  forall (reqs : list Request) (s : State),
    stdout s `prefix_of` stdout (snd (serve_all reqs s)) /\
    length (stdout (snd (serve_all reqs s))) =
      (length (stdout s) +
       4 * length (List.filter is_products_request reqs) +
       length (List.filter is_health_request reqs))%nat /\
    Forall (fun r => level r = logging_INFO)
           (drop (length (stdout s)) (stdout (snd (serve_all reqs s)))).
Proof.
  intros reqs s.
  destruct (serve_all_stdout_lines reqs s) as (lines & Hout & Hlen & Hinfo).
  rewrite Hout. split; [|split].
  - exists lines. reflexivity.
  - rewrite length_app, Hlen. lia.
  - rewrite drop_app_length. exact Hinfo.
Qed.

(** X3.  No request influences a later response: the responses to a
    sequence of requests are the responses each request would get on its
    own in the starting state. *)
Theorem serve_all_responses_independent :
  forall (reqs : list Request) (s : State),
    fst (serve_all reqs s) = map (fun req => fst (app req s)) reqs.
Proof.
  induction reqs as [|req rest IH]; intros s; [reflexivity|].
  rewrite serve_all_cons. cbn [fst map]. f_equal.
  rewrite IH. apply map_ext. intros r.
  apply app_response_database, app_database.
Qed.









(** X8.  None of the log calls of the request handlers uses a reserved
    key: every line a request writes is formatted as the record's four
    entries followed by its fields unchanged, reports the level "INFO",
    and comes from one of the three application loggers. *)
Theorem request_log_lines_format :
  forall (now : string) (req : Request) (s : State),
    Forall
      (fun r =>
         format_log_data now r = (base_log_data now r ++ extra_fields r)%list /\
         dict_get "level" (format_log_data now r) = Some (LStr "INFO") /\
         logger_name r ∈
           ["app.api.products"; "app.services.product_service"; "app.main"])
      (written (app req) s).
Proof.
  intros now req s.
  destruct (request_cases req) as [-> | ->].
  - rewrite (written_app _ _ _ (app_products_stdout (query req) s)).
    repeat constructor.
  - rewrite (written_app _ _ _ (app_health_stdout (query req) s)).
    repeat constructor.
Qed.



(** X10.  The seed catalog as the module's docstrings and comments
    describe it: 30 products that all meet the [Product] field
    constraints, with IDs 1 to 30 and no ID twice; grouped by category in
    blocks of 8 electronics, 7 clothing, 7 home, 5 sports and 3 books;
    four of them out of stock.  Every price lies in the documented range
    $5.99 to $499.99 and $499.99 is reached, but the cheapest product
    costs $16.99. *)
Theorem seed_catalog_composition :
  length get_seed_products = 30%nat /\
  forallb Product_fields_ok get_seed_products = true /\
  map product_id get_seed_products = seqZ 1 30 /\
  NoDup (map product_id get_seed_products) /\
  map product_category get_seed_products =
    (replicate 8 electronics ++ replicate 7 clothing ++ replicate 7 home ++
     replicate 5 sports ++ replicate 3 books)%list /\
  map product_id
      (List.filter (fun p => negb (product_in_stock p)) get_seed_products) =
    [4; 12; 19; 27] /\
  Forall (fun p => Decimal_leb (usd 599) (product_price_usd p) = true /\
                   Decimal_leb (usd 1699) (product_price_usd p) = true /\
                   Decimal_leb (product_price_usd p) (usd 49999) = true)
         get_seed_products /\
  map product_id
      (List.filter (fun p => Decimal_leb (product_price_usd p) (usd 1699))
                   get_seed_products) = [29] /\
  map product_id
      (List.filter (fun p => Decimal_leb (usd 49999) (product_price_usd p))
                   get_seed_products) = [24].
Proof.
  assert (Hids : map product_id get_seed_products = seqZ 1 30) by reflexivity.
  split; [reflexivity|]. split; [vm_compute; reflexivity|].
  split; [exact Hids|]. split; [rewrite Hids; apply NoDup_seqZ|].
  split; [reflexivity|]. split; [reflexivity|].
  split; [|split; vm_compute; reflexivity].
  apply Forall_forall. intros p Hp.
  apply list_elem_of_In in Hp. cbn in Hp.
  repeat (destruct Hp as [<-|Hp]; [repeat split|]). contradiction.
Qed.

End further_properties.
